(** * deephaven.agg: aggregation specifications

    A shallow embedding of [py/server/deephaven/agg.py].  The module builds
    [Aggregation] objects, thin wrappers around one of two engine-side
    representations (an [AggSpec] still waiting for its columns, or a complete
    engine [Aggregation]), and exposes three read-only properties on them.

    Python exceptions are results of type [Result]; engine objects reached
    through jpy are recorded as the calls that build them. *)

From Stdlib Require Import List String Ascii Bool Arith ZArith QArith Lia.
From Stdlib Require Import Sorted Permutation.
Import ListNotations.
Local Open Scope string_scope.
Local Open Scope list_scope.
Local Close Scope Q_scope.
Set Warnings "-register-all".

(** ** Exceptions and results *)

(** What a Python call can raise here: [DHError] is the only exception the
    module constructs itself; [AttributeError] is attribute access on [None];
    [JException] stands for an exception thrown by engine code behind jpy. *)
Inductive exn : Type :=
| DHError (message : string)
| AttributeError (attribute : string)
| JException (detail : string).

Inductive Result (A : Type) : Type :=
| Ok (value : A)
| Raise (e : exn).

Arguments Ok {A} value.
Arguments Raise {A} e.

Definition bind {A B : Type} (r : Result A) (k : A -> Result B) : Result B :=
  match r with
  | Ok a => k a
  | Raise e => Raise e
  end.

Notation "x <- r ;; k" := (bind r (fun x => k))
  (at level 61, r at next level, right associativity).

(** A list comprehension whose element expression may raise: elements are
    evaluated left to right and the first exception escapes. *)
Fixpoint comprehension {A B : Type} (f : A -> Result B) (l : list A)
  : Result (list B) :=
  match l with
  | [] => Ok []
  | a :: rest =>
      b <- f a ;;
      bs <- comprehension f rest ;;
      Ok (b :: bs)
  end.

Definition raises {A : Type} (r : Result A) : bool :=
  match r with
  | Ok _ => false
  | Raise _ => true
  end.

(** ** Python values and arguments *)

(** Dynamically typed values, for the arguments the module inspects at run
    time ([isinstance(col, str)], [non_unique_sentinel is None]). *)
Inductive PyValue : Type :=
| PyNone
| PyBool (b : bool)
| PyInt (n : Z)
| PyFloat (x : Q)
| PyStr (s : string)
| PyList (items : list PyValue).

(** An argument annotated [Union[T, Sequence[T]] = None]. *)
Inductive Arg (A : Type) : Type :=
| Absent
| One (value : A)
| Many (values : list A).

Arguments Absent {A}.
Arguments One {A} value.
Arguments Many {A} values.

(** Whether a scalar argument is itself an empty Python sequence (only the
    empty string is). *)
Class Scalar (A : Type) : Type := { empty_sequence : A -> bool }.

Definition is_empty_string (s : string) : bool :=
  match s with
  | EmptyString => true
  | String _ _ => false
  end.

#[export] Instance Scalar_string : Scalar string :=
  {| empty_sequence := is_empty_string |}.

(** Python truth value of such an argument ([if cols:]). *)
Definition truthy {A : Type} `{Scalar A} (v : Arg A) : bool :=
  match v with
  | Absent => false
  | One a => negb (empty_sequence a)
  | Many [] => false
  | Many (_ :: _) => true
  end.

(** Python truth value of an [Optional[str]] ([if formula_param:]). *)
Definition truthy_opt (v : option string) : bool :=
  match v with
  | None => false
  | Some s => negb (is_empty_string s)
  end.

(** Modelled from the spec: [deephaven.jcompat.to_sequence] is not under src/.
    A column-list argument holds "zero or more column references": nothing (or
    an empty value) is the empty sequence, one value is a one-element
    sequence, a list is the sequence of its elements. *)
Definition to_sequence {A : Type} `{Scalar A} (v : Arg A) : list A :=
  match v with
  | Absent => []
  | One a => if empty_sequence a then [] else [a]
  | Many l => l
  end.

(** ** Engine objects reached through jpy *)

(** Modelled from the spec: [io.deephaven.api.object.UnionObject] is not under
    src/; the sentinel is kept as the value it wraps. *)
Inductive JUnionObject : Type :=
| UnionObject_of (value : PyValue).

(** Modelled from the spec: [io.deephaven.api.agg.spec.AggSpec] is not under
    src/.  An AggregationSpec "declares kind and per-kind parameters"; one
    constructor per static factory the module calls, holding the arguments of
    the call. *)
Inductive JAggSpec : Type :=
| AggSpec_sum
| AggSpec_absSum
| AggSpec_group
| AggSpec_avg
| AggSpec_countDistinct (count_nulls : bool)
| AggSpec_first
| AggSpec_formula (formula : string) (param_token : string)
| AggSpec_last
| AggSpec_min
| AggSpec_max
| AggSpec_median (average_evenly_divided : bool)
| AggSpec_percentile (percentile : Q) (average_evenly_divided : bool)
| AggSpec_sortedFirst (order_by : string)
| AggSpec_sortedLast (order_by : string)
| AggSpec_std
| AggSpec_unique
| AggSpec_unique_with (include_nulls : bool) (sentinel : JUnionObject)
| AggSpec_var
| AggSpec_wavg (wcol : string)
| AggSpec_wsum (wcol : string)
| AggSpec_distinct (include_nulls : bool).

(** Modelled from the spec: [io.deephaven.api.Pair] is not under src/; a
    column reference "new_name = source_name" names an output and an input
    column. *)
Record JPair : Type := mkPair { output : string; input : string }.

(** Modelled from the spec: the engine's filter objects are not under src/;
    "any boolean-valued expression over a row's columns, composable with
    logical AND". *)
Inductive JFilter : Type :=
| JFilter_expr (expression : string)
| JFilter_and (filters : list JFilter)
| JFilter_or (filters : list JFilter)
| JFilter_not (filter : JFilter).

(** Modelled from the spec: [io.deephaven.api.agg.Aggregation] is not under
    src/; one constructor per static factory the module calls, and
    [Aggregation_of] for [AggSpec.aggregation(pairs...)]. *)
Inductive JAggregation : Type :=
| AggCount (col : string)
| AggCountWhere (col : string) (filter : JFilter)
| AggPartition (col : string) (include_by_columns : bool)
| AggFormula (formula : string)
| Aggregation_of (spec : JAggSpec) (pairs : list JPair).

(** [deephaven.filters.Filter]: a wrapper holding the engine filter. *)
Record Filter : Type := mkFilter { j_filter : JFilter }.

(** One entry of [count_where]'s [filters]: a condition string or a [Filter]. *)
Inductive FilterArg : Type :=
| FilterStr (condition : string)
| FilterObj (f : Filter).

#[export] Instance Scalar_FilterArg : Scalar FilterArg :=
  {| empty_sequence := fun a =>
       match a with
       | FilterStr s => is_empty_string s
       | FilterObj _ => false
       end |}.

(** [isinstance(x, AggSpecFormula)] and [isinstance(x, Formula)]. *)
Definition isinstance_AggSpecFormula (s : JAggSpec) : bool :=
  match s with
  | AggSpec_formula _ _ => true
  | _ => false
  end.

Definition isinstance_Formula (a : JAggregation) : bool :=
  match a with
  | AggFormula _ => true
  | _ => false
  end.

(** ** class Aggregation *)

Record Aggregation : Type := mkAggregation {
  _j_agg_spec : option JAggSpec;
  _j_aggregation : option JAggregation;
  _cols : list string
}.

(** [Aggregation.__init__]; every parameter defaults to [None]. *)
Definition Aggregation_init (j_agg_spec : option JAggSpec)
  (j_aggregation : option JAggregation) (cols : Arg string) : Aggregation :=
  {| _j_agg_spec := j_agg_spec;
     _j_aggregation := j_aggregation;
     _cols := to_sequence cols |}.

Definition is_nil {A : Type} (l : list A) : bool :=
  match l with
  | [] => true
  | _ :: _ => false
  end.

Section Properties.

(** [_JPair.parse], an engine method: the parsed pair or its exception. *)
Variable JPair_parse : string -> Result JPair.

(** Property [j_aggregation].  A jpy object is always true, so
    [if self._j_aggregation] tests for [None].  The callee
    [self._j_agg_spec.aggregation] is looked up before the argument list is
    evaluated. *)
Definition j_aggregation (self : Aggregation) : Result JAggregation :=
  match _j_aggregation self with
  | Some agg => Ok agg
  | None =>
      if is_nil (_cols self)
      then Raise (DHError "No columns specified for the aggregation operation.")
      else
        match _j_agg_spec self with
        | None => Raise (AttributeError "aggregation")
        | Some spec =>
            pairs <- comprehension JPair_parse (_cols self) ;;
            Ok (Aggregation_of spec pairs)
        end
  end.

End Properties.

(** Property [j_agg_spec]. *)
Definition j_agg_spec (self : Aggregation) : Result (option JAggSpec) :=
  match _j_aggregation self with
  | Some _ => Raise (DHError "unsupported aggregation operation.")
  | None => Ok (_j_agg_spec self)
  end.

(** Property [is_formula]. *)
Definition is_formula (self : Aggregation) : Result bool :=
  match _j_agg_spec self with
  | Some spec => Ok (isinstance_AggSpecFormula spec)
  | None =>
      match _j_aggregation self with
      | Some agg => Ok (isinstance_Formula agg)
      | None =>
          Raise (DHError "Aggregation object is not initialized with a valid aggregation specification or aggregation object.")
      end
  end.

(** ** Factory functions *)

Section Factories.

(** [deephaven.filters.and_], imported by the module: the combined
    [Filter], or the exception it raises on a filter it rejects. *)
Variable and_ : list FilterArg -> Result Filter.

Definition sum_ (cols : Arg string) : Result Aggregation :=
  Ok (Aggregation_init (Some AggSpec_sum) None cols).

Definition abs_sum (cols : Arg string) : Result Aggregation :=
  Ok (Aggregation_init (Some AggSpec_absSum) None cols).

Definition group (cols : Arg string) : Result Aggregation :=
  Ok (Aggregation_init (Some AggSpec_group) None cols).

Definition avg (cols : Arg string) : Result Aggregation :=
  Ok (Aggregation_init (Some AggSpec_avg) None cols).

Definition count_ (col : PyValue) : Result Aggregation :=
  match col with
  | PyStr name => Ok (Aggregation_init None (Some (AggCount name)) Absent)
  | _ =>
      Raise (DHError "count_ aggregation requires a string value for the 'col' argument.")
  end.

Definition count_where (col : PyValue) (filters : Arg FilterArg)
  : Result Aggregation :=
  match col with
  | PyStr name =>
      let filters := to_sequence filters in
      combined <- and_ filters ;;
      Ok (Aggregation_init None
            (Some (AggCountWhere name (j_filter combined))) Absent)
  | _ =>
      Raise (DHError "count_where aggregation requires a string value for the 'col' argument.")
  end.

Definition partition (col : PyValue) (include_by_columns : bool)
  : Result Aggregation :=
  match col with
  | PyStr name =>
      Ok (Aggregation_init None
            (Some (AggPartition name include_by_columns)) Absent)
  | _ =>
      Raise (DHError "partition aggregation requires a string value for the 'col' argument.")
  end.

Definition count_distinct (cols : Arg string) (count_nulls : bool)
  : Result Aggregation :=
  Ok (Aggregation_init (Some (AggSpec_countDistinct count_nulls)) None cols).

Definition first (cols : Arg string) : Result Aggregation :=
  Ok (Aggregation_init (Some AggSpec_first) None cols).

Definition formula (formula : string) (formula_param : option string)
  (cols : Arg string) : Result Aggregation :=
  (* [if formula_param:] holds for a non-empty string *)
  match formula_param with
  | Some (String _ _ as param) =>
      Ok (Aggregation_init (Some (AggSpec_formula formula param)) None cols)
  | _ =>
      if truthy cols
      then Raise (DHError "The 'cols' argument is only valid when 'formula_param' is provided.")
      else Ok (Aggregation_init None (Some (AggFormula formula)) Absent)
  end.

Definition last (cols : Arg string) : Result Aggregation :=
  Ok (Aggregation_init (Some AggSpec_last) None cols).

Definition min_ (cols : Arg string) : Result Aggregation :=
  Ok (Aggregation_init (Some AggSpec_min) None cols).

Definition max_ (cols : Arg string) : Result Aggregation :=
  Ok (Aggregation_init (Some AggSpec_max) None cols).

Definition median (cols : Arg string) (average_evenly_divided : bool)
  : Result Aggregation :=
  Ok (Aggregation_init (Some (AggSpec_median average_evenly_divided)) None cols).

Definition pct (percentile : Q) (cols : Arg string)
  (average_evenly_divided : bool) : Result Aggregation :=
  Ok (Aggregation_init
        (Some (AggSpec_percentile percentile average_evenly_divided)) None cols).

Definition sorted_first (order_by : string) (cols : Arg string)
  : Result Aggregation :=
  Ok (Aggregation_init (Some (AggSpec_sortedFirst order_by)) None cols).

Definition sorted_last (order_by : string) (cols : Arg string)
  : Result Aggregation :=
  Ok (Aggregation_init (Some (AggSpec_sortedLast order_by)) None cols).

Definition std (cols : Arg string) : Result Aggregation :=
  Ok (Aggregation_init (Some AggSpec_std) None cols).

Definition unique (cols : Arg string) (include_nulls : bool)
  (non_unique_sentinel : PyValue) : Result Aggregation :=
  match non_unique_sentinel with
  | PyNone =>
      if include_nulls
      then Raise (DHError "when include_nulls is True, a non-null sentinel value must be provided.")
      else Ok (Aggregation_init (Some AggSpec_unique) None cols)
  | sentinel =>
      let non_unique_sentinel := UnionObject_of sentinel in
      Ok (Aggregation_init
            (Some (AggSpec_unique_with include_nulls non_unique_sentinel))
            None cols)
  end.

Definition var (cols : Arg string) : Result Aggregation :=
  Ok (Aggregation_init (Some AggSpec_var) None cols).

Definition weighted_avg (wcol : string) (cols : Arg string)
  : Result Aggregation :=
  Ok (Aggregation_init (Some (AggSpec_wavg wcol)) None cols).

Definition weighted_sum (wcol : string) (cols : Arg string)
  : Result Aggregation :=
  Ok (Aggregation_init (Some (AggSpec_wsum wcol)) None cols).

Definition distinct (cols : Arg string) (include_nulls : bool)
  : Result Aggregation :=
  Ok (Aggregation_init (Some (AggSpec_distinct include_nulls)) None cols).

(** *** Calls of the public factories *)

(** A call of one of the module's public functions with its arguments. *)
Inductive Call : Type :=
| call_sum_ (cols : Arg string)
| call_abs_sum (cols : Arg string)
| call_group (cols : Arg string)
| call_avg (cols : Arg string)
| call_count_ (col : PyValue)
| call_count_where (col : PyValue) (filters : Arg FilterArg)
| call_partition (col : PyValue) (include_by_columns : bool)
| call_count_distinct (cols : Arg string) (count_nulls : bool)
| call_first (cols : Arg string)
| call_formula (formula : string) (formula_param : option string)
    (cols : Arg string)
| call_last (cols : Arg string)
| call_min_ (cols : Arg string)
| call_max_ (cols : Arg string)
| call_median (cols : Arg string) (average_evenly_divided : bool)
| call_pct (percentile : Q) (cols : Arg string)
    (average_evenly_divided : bool)
| call_sorted_first (order_by : string) (cols : Arg string)
| call_sorted_last (order_by : string) (cols : Arg string)
| call_std (cols : Arg string)
| call_unique (cols : Arg string) (include_nulls : bool)
    (non_unique_sentinel : PyValue)
| call_var (cols : Arg string)
| call_weighted_avg (wcol : string) (cols : Arg string)
| call_weighted_sum (wcol : string) (cols : Arg string)
| call_distinct (cols : Arg string) (include_nulls : bool).

Definition eval_call (c : Call) : Result Aggregation :=
  match c with
  | call_sum_ cols => sum_ cols
  | call_abs_sum cols => abs_sum cols
  | call_group cols => group cols
  | call_avg cols => avg cols
  | call_count_ col => count_ col
  | call_count_where col filters => count_where col filters
  | call_partition col include_by_columns => partition col include_by_columns
  | call_count_distinct cols count_nulls => count_distinct cols count_nulls
  | call_first cols => first cols
  | call_formula f formula_param cols => formula f formula_param cols
  | call_last cols => last cols
  | call_min_ cols => min_ cols
  | call_max_ cols => max_ cols
  | call_median cols a => median cols a
  | call_pct percentile cols a => pct percentile cols a
  | call_sorted_first order_by cols => sorted_first order_by cols
  | call_sorted_last order_by cols => sorted_last order_by cols
  | call_std cols => std cols
  | call_unique cols include_nulls s => unique cols include_nulls s
  | call_var cols => var cols
  | call_weighted_avg wcol cols => weighted_avg wcol cols
  | call_weighted_sum wcol cols => weighted_sum wcol cols
  | call_distinct cols include_nulls => distinct cols include_nulls
  end.

(** The [cols] argument of a call of a column-list factory (one whose
    signature has [cols: Union[str, List[str]] = None]); [None] for the
    others. *)
Definition column_list_cols (c : Call) : option (Arg string) :=
  match c with
  | call_sum_ cols | call_abs_sum cols | call_group cols | call_avg cols
  | call_count_distinct cols _ | call_first cols | call_last cols
  | call_min_ cols | call_max_ cols | call_median cols _
  | call_pct _ cols _ | call_sorted_first _ cols | call_sorted_last _ cols
  | call_std cols | call_unique cols _ _ | call_var cols
  | call_weighted_avg _ cols | call_weighted_sum _ cols
  | call_distinct cols _ => Some cols
  | call_count_ _ | call_count_where _ _ | call_partition _ _
  | call_formula _ _ _ => None
  end.

End Factories.

(** ** The engine contract the module relies on *)

(** *** Column references *)

(** Pieces of [s] between occurrences of [sep]. *)
Fixpoint split_on (sep : ascii) (s : string) : list string :=
  match s with
  | EmptyString => [EmptyString]
  | String c rest =>
      if Ascii.eqb c sep
      then EmptyString :: split_on sep rest
      else
        match split_on sep rest with
        | [] => [String c EmptyString]
        | piece :: pieces => String c piece :: pieces
        end
  end.

Definition is_space (c : ascii) : bool := Ascii.eqb c " "%char.

Fixpoint lstrip (s : string) : string :=
  match s with
  | EmptyString => EmptyString
  | String c rest => if is_space c then lstrip rest else s
  end.

Fixpoint rstrip (s : string) : string :=
  match s with
  | EmptyString => EmptyString
  | String c rest =>
      match rstrip rest with
      | EmptyString => if is_space c then EmptyString else String c EmptyString
      | kept => String c kept
      end
  end.

Definition strip (s : string) : string := lstrip (rstrip s).

(** Modelled from the spec: [io.deephaven.api.Pair.parse] is not under src/.
    A column reference is a column name, "optionally a new_name = source_name
    rename"; it "fails with InvalidArgument if a rename expression cannot be
    parsed into exactly one =". *)
Definition Pair_parse (col : string) : Result JPair :=
  match split_on "="%char col with
  | [name] => Ok {| output := strip name; input := strip name |}
  | [new_name; source_name] =>
      Ok {| output := strip new_name; input := strip source_name |}
  | _ => Raise (JException ("InvalidArgument: unable to parse pair " ++ col))
  end.

(** *** Filters *)

Definition filter_of (a : FilterArg) : JFilter :=
  match a with
  | FilterStr condition => JFilter_expr condition
  | FilterObj f => j_filter f
  end.

(** Modelled from the spec: [deephaven.filters.and_] is not under src/; it
    "composes multiple filters with logical AND", a condition string standing
    for the filter it denotes. *)
Definition and_filters (filters : list FilterArg) : Result Filter :=
  Ok {| j_filter := JFilter_and (map filter_of filters) |}.

Section FilterSemantics.

(** Rows of the grouped table, and the truth of a condition string on a row
    ("exact expression syntax is an external collaborator's concern"). *)
Variable Row : Type.
Variable eval_condition : string -> Row -> bool.

(** Modelled from the spec: the meaning of an engine filter on a row. *)
Fixpoint holds (f : JFilter) (row : Row) : bool :=
  match f with
  | JFilter_expr condition => eval_condition condition row
  | JFilter_and filters => forallb (fun g => holds g row) filters
  | JFilter_or filters => existsb (fun g => holds g row) filters
  | JFilter_not g => negb (holds g row)
  end.

(** The truth of one supplied predicate on a row. *)
Definition predicate_holds (a : FilterArg) (row : Row) : bool :=
  holds (filter_of a) row.

(** Modelled from the spec: the engine's reduction of a group under a
    count-where aggregation, "counts rows within the group for which" the
    filter holds; [None] for the other kinds of aggregation. *)
Definition count_where_of (agg : JAggregation) (rows : list Row)
  : option nat :=
  match agg with
  | AggCountWhere _ f => Some (List.length (List.filter (holds f) rows))
  | _ => None
  end.

End FilterSemantics.

Arguments holds {Row} eval_condition f row.
Arguments predicate_holds {Row} eval_condition a row.
Arguments count_where_of {Row} eval_condition agg rows.

(** A sample table for the statements below: a row is the value of its one
    integer column X, and two condition strings are understood. *)
Definition sample_condition (condition : string) (x : Z) : bool :=
  if String.eqb condition "X > 1" then (1 <? x)%Z
  else if String.eqb condition "X < 5" then (x <? 5)%Z
  else false.

(** *** Median and percentile *)

Fixpoint insert_sorted (x : Q) (l : list Q) : list Q :=
  match l with
  | [] => [x]
  | y :: rest => if Qle_bool x y then x :: l else y :: insert_sorted x rest
  end.

(** The "fully materialized, sorted view of the group's values". *)
Definition sorted_view (values : list Q) : list Q :=
  fold_right insert_sorted [] values.

Definition between (average_evenly_divided : bool) (lower upper : Q) : Q :=
  if average_evenly_divided then ((lower + upper) / 2)%Q else lower.

(** Modelled from the spec: the engine's median, in the words of [median]'s
    docstring: "when the group size is an even number, whether to average the
    two middle values"; "when set to False, use the smaller value". *)
Definition median_of (average_evenly_divided : bool) (values : list Q)
  : option Q :=
  let s := sorted_view values in
  let n := List.length s in
  match n with
  | O => None
  | S _ =>
      if Nat.even n
      then
        match nth_error s (n / 2 - 1), nth_error s (n / 2) with
        | Some lower, Some upper =>
            Some (between average_evenly_divided lower upper)
        | _, _ => None
        end
      else nth_error s (n / 2)
  end.

(** Modelled from the spec: the engine's percentile.  The target rank of
    percentile [p] among [n] sorted values is [p * (n - 1)], counted from 0;
    "when the target rank falls between two values,
    average_evenly_divided=true averages them, false takes the lower-indexed
    (smaller) of the two". *)
Definition percentile_of (p : Q) (average_evenly_divided : bool)
  (values : list Q) : option Q :=
  let s := sorted_view values in
  let n := List.length s in
  match n with
  | O => None
  | S m =>
      let rank_num := (Qnum p * Z.of_nat m)%Z in
      let rank_den := Zpos (Qden p) in
      let i := Z.to_nat (rank_num / rank_den) in
      if (rank_num mod rank_den =? 0)%Z
      then nth_error s i
      else
        match nth_error s i, nth_error s (i + 1) with
        | Some lower, Some upper =>
            Some (between average_evenly_divided lower upper)
        | _, _ => None
        end
  end.

(** Modelled from the spec: the reduction of one group's values that the
    engine performs for an order-statistic spec; [None] for the kinds this
    development does not evaluate. *)
Definition order_statistic (spec : JAggSpec) : option (list Q -> option Q) :=
  match spec with
  | AggSpec_median a => Some (median_of a)
  | AggSpec_percentile p a => Some (percentile_of p a)
  | _ => None
  end.

(** Applying an [Aggregation] built by the module to one group's values. *)
Definition apply_to_group (agg : Aggregation) (values : list Q) : option Q :=
  match j_agg_spec agg with
  | Ok (Some spec) =>
      match order_statistic spec with
      | Some reduce => reduce values
      | None => None
      end
  | _ => None
  end.

(** ** Vocabulary of the statements *)

(** The exception a call raised, if it raised. *)
Definition error_of {A : Type} (r : Result A) : option exn :=
  match r with
  | Ok _ => None
  | Raise e => Some e
  end.

(** [v is None]. *)
Definition is_None (v : PyValue) : bool :=
  match v with
  | PyNone => true
  | _ => false
  end.

(** Calls that hand the engine a complete aggregation rather than a spec:
    [count_], [count_where], [partition], and [formula] in its self-contained
    mode (no [formula_param]). *)
Definition complete_operation (c : Call) : bool :=
  match c with
  | call_count_ _ | call_count_where _ _ | call_partition _ _ => true
  | call_formula _ formula_param _ => negb (truthy_opt formula_param)
  | _ => false
  end.

Definition is_formula_call (c : Call) : bool :=
  match c with
  | call_formula _ _ _ => true
  | _ => false
  end.

Definition no_columns : exn :=
  DHError "No columns specified for the aggregation operation.".

Definition unsupported : exn :=
  DHError "unsupported aggregation operation.".

Definition cols_without_param : exn :=
  DHError "The 'cols' argument is only valid when 'formula_param' is provided.".

Definition sentinel_required : exn :=
  DHError "when include_nulls is True, a non-null sentinel value must be provided.".

(** * Properties *)

(** ** Results and comprehensions *)

Lemma raises_bind_Ok {A B : Type} (r : Result A) (g : A -> B) :
  raises (x <- r ;; Ok (g x)) = raises r.
Proof. destruct r; reflexivity. Qed.

Lemma error_of_bind_Ok {A B : Type} (r : Result A) (g : A -> B) :
  error_of (x <- r ;; Ok (g x)) = error_of r.
Proof. destruct r; reflexivity. Qed.

(** A comprehension raises exactly when one of its elements does. *)
Lemma raises_comprehension {A B : Type} (f : A -> Result B) (l : list A) :
  raises (comprehension f l) = existsb (fun a => raises (f a)) l.
Proof.
  induction l as [| a rest IH]; simpl.
  - reflexivity.
  - destruct (f a) as [b | e]; simpl.
    + rewrite <- IH. destruct (comprehension f rest); reflexivity.
    + reflexivity.
Qed.

(** The exception of a comprehension is that of its first failing element. *)
Lemma comprehension_Raise_first {A B : Type} (f : A -> Result B)
  (before : list A) (a : A) (after : list A) (e : exn) :
  Forall (fun x => raises (f x) = false) before ->
  f a = Raise e ->
  comprehension f (before ++ a :: after) = Raise e.
Proof.
  intros Hbefore Hfa.
  induction Hbefore as [| x rest Hx _ IH]; simpl.
  - rewrite Hfa. reflexivity.
  - destruct (f x) as [b | e']; [| discriminate Hx].
    simpl. rewrite IH. reflexivity.
Qed.

(** When every element evaluates, the comprehension is the list of results. *)
Lemma comprehension_Ok {A B : Type} (f : A -> Result B) (g : A -> B)
  (l : list A) :
  (forall a, In a l -> f a = Ok (g a)) ->
  comprehension f l = Ok (map g l).
Proof.
  induction l as [| a rest IH]; intros Hall; simpl.
  - reflexivity.
  - rewrite (Hall a (or_introl eq_refl)). simpl.
    rewrite IH by (intros x Hx; apply Hall; right; exact Hx).
    reflexivity.
Qed.

Lemma to_sequence_Absent {A : Type} `{Scalar A} :
  to_sequence (@Absent A) = [].
Proof. reflexivity. Qed.

(** [if cols:] and the emptiness of [to_sequence(cols)] agree. *)
Lemma truthy_to_sequence (cols : Arg string) :
  truthy cols = negb (is_nil (to_sequence cols)).
Proof.
  destruct cols as [| s | l]; simpl.
  - reflexivity.
  - destruct s; reflexivity.
  - destruct l; reflexivity.
Qed.

(** ** Construction errors *)

(** C1 (counterexample): with [formula_param] supplied and no column list,
    [formula] raises nothing; it returns the parameterized spec with an empty
    column sequence.  The same holds when [formula_param] and [cols] are both
    supplied. *)
Lemma formula_param_without_cols_constructs :
  formula "max(each)" (Some "each") Absent
  = Ok {| _j_agg_spec := Some (AggSpec_formula "max(each)" "each");
          _j_aggregation := None;
          _cols := [] |}
  /\ formula "max(each)" (Some "each") (One "MaxX = X")
     = Ok {| _j_agg_spec := Some (AggSpec_formula "max(each)" "each");
             _j_aggregation := None;
             _cols := ["MaxX = X"] |}.
Proof. split; reflexivity. Qed.

(** C1 (amended): [formula] raises exactly when [cols] is supplied while
    [formula_param] is not, and then it raises the DHError about [cols].
    With [formula_param] supplied and no column list the construction
    succeeds; the missing columns are reported when [j_aggregation] is read,
    whatever the pair parser. *)
Theorem formula_raises_iff_cols_without_param
  (parse : string -> Result JPair) (f : string) (formula_param : option string)
  (cols : Arg string) :
  error_of (formula f formula_param cols)
  = (if negb (truthy_opt formula_param) && truthy cols
     then Some cols_without_param else None)
  /\ error_of (a <- formula f formula_param Absent ;; j_aggregation parse a)
     = (if truthy_opt formula_param then Some no_columns else None).
Proof.
  split.
  - destruct formula_param as [[| c rest] |]; simpl;
      destruct (truthy cols); reflexivity.
  - destruct formula_param as [[| c rest] |]; reflexivity.
Qed.

(** C2: [unique] raises a DHError when [include_nulls] is true and
    [non_unique_sentinel] is [None]; with a sentinel, or with [include_nulls]
    false, it returns an aggregation: the plain unique spec without a
    sentinel, the spec carrying the flag and the wrapped sentinel with one. *)
Theorem unique_requires_sentinel_with_nulls
  (cols : Arg string) (include_nulls : bool) (non_unique_sentinel : PyValue) :
  unique cols true PyNone = Raise sentinel_required
  /\ unique cols false PyNone = Ok (Aggregation_init (Some AggSpec_unique) None cols)
  /\ error_of (unique cols include_nulls non_unique_sentinel)
     = (if include_nulls && is_None non_unique_sentinel
        then Some sentinel_required else None)
  /\ (if is_None non_unique_sentinel then True
      else unique cols include_nulls non_unique_sentinel
           = Ok (Aggregation_init
                   (Some (AggSpec_unique_with include_nulls
                            (UnionObject_of non_unique_sentinel)))
                   None cols)).
Proof.
  repeat split.
  - destruct non_unique_sentinel, include_nulls; reflexivity.
  - destruct non_unique_sentinel; simpl; trivial.
Qed.

(** C4: [count_], [count_where] and [partition] raise a DHError when [col] is
    not a string.  For a string [col], [count_] and [partition] return the
    engine's count and partition aggregations, and [count_where] raises only
    what [and_] raises on the filters, returning the count-where aggregation
    of the combined filter otherwise. *)
Theorem col_must_be_a_string
  (and_ : list FilterArg -> Result Filter) (col : PyValue)
  (filters : Arg FilterArg) (include_by_columns : bool) :
  match col with
  | PyStr name =>
      count_ col = Ok (Aggregation_init None (Some (AggCount name)) Absent)
      /\ partition col include_by_columns
         = Ok (Aggregation_init None
                 (Some (AggPartition name include_by_columns)) Absent)
      /\ error_of (count_where and_ col filters)
         = error_of (and_ (to_sequence filters))
      /\ match and_ (to_sequence filters) with
         | Ok combined =>
             count_where and_ col filters
             = Ok (Aggregation_init None
                     (Some (AggCountWhere name (j_filter combined))) Absent)
         | Raise _ => True
         end
  | _ =>
      count_ col
      = Raise (DHError "count_ aggregation requires a string value for the 'col' argument.")
      /\ count_where and_ col filters
         = Raise (DHError "count_where aggregation requires a string value for the 'col' argument.")
      /\ partition col include_by_columns
         = Raise (DHError "partition aggregation requires a string value for the 'col' argument.")
  end.
Proof.
  destruct col; try (repeat split; reflexivity).
  unfold count_where. repeat split.
  - destruct (and_ (to_sequence filters)); reflexivity.
  - destruct (and_ (to_sequence filters)); [reflexivity | exact I].
Qed.

(** ** Column lists are parsed when the aggregation is read *)

(** What every column-list factory returns: the spec it was given, no
    complete aggregation, and the columns as passed. *)
Lemma column_list_call_shape
  (and_ : list FilterArg -> Result Filter) (c : Call) (cols : Arg string)
  (a : Aggregation) :
  column_list_cols c = Some cols ->
  eval_call and_ c = Ok a ->
  exists spec, a = Aggregation_init (Some spec) None cols.
Proof.
  intros Hcols Hcall.
  destruct c; simpl in Hcols; try discriminate Hcols;
    injection Hcols as <-; simpl in Hcall;
    try (injection Hcall as <-; eexists; reflexivity).
  unfold unique in Hcall.
  destruct non_unique_sentinel, include_nulls; try discriminate Hcall;
    injection Hcall as <-; eexists; reflexivity.
Qed.

(** The only exception a column-list factory raises is [unique]'s. *)
Lemma column_list_call_raise
  (and_ : list FilterArg -> Result Filter) (c : Call) (cols : Arg string)
  (e : exn) :
  column_list_cols c = Some cols ->
  eval_call and_ c = Raise e ->
  c = call_unique cols true PyNone /\ e = sentinel_required.
Proof.
  intros Hcols Hcall.
  destruct c; simpl in Hcols; try discriminate Hcols;
    injection Hcols as <-; simpl in Hcall; try discriminate Hcall.
  unfold unique in Hcall.
  destruct non_unique_sentinel, include_nulls; try discriminate Hcall.
  injection Hcall as <-. split; reflexivity.
Qed.

(** Reading [j_aggregation] from an object that holds a spec. *)
Lemma j_aggregation_of_spec
  (parse : string -> Result JPair) (spec : JAggSpec) (cols : Arg string) :
  j_aggregation parse (Aggregation_init (Some spec) None cols)
  = match to_sequence cols with
    | [] => Raise no_columns
    | given =>
        pairs <- comprehension parse given ;;
        Ok (Aggregation_of spec pairs)
    end.
Proof.
  unfold j_aggregation, Aggregation_init. simpl.
  destruct (to_sequence cols); reflexivity.
Qed.

(** C3 (counterexample): a rename expression with two "=" does not parse, yet
    [sum_] accepts it and stores it as given. *)
Lemma sum_accepts_unparsable_rename :
  Pair_parse "a = b = c"
  = Raise (JException "InvalidArgument: unable to parse pair a = b = c")
  /\ sum_ (One "a = b = c")
     = Ok {| _j_agg_spec := Some AggSpec_sum;
             _j_aggregation := None;
             _cols := ["a = b = c"] |}.
Proof. split; reflexivity. Qed.

(** C3 (amended): a column-list factory never parses [cols].  Its call raises
    only in [unique]'s sentinel check; otherwise it returns an object holding
    the columns as passed, whatever they are, and it is reading
    [j_aggregation] that fails when a column does not parse (or when there is
    no column): the property then raises the exception the parser raised on
    the first column it rejects. *)
Theorem column_list_cols_are_parsed_on_read
  (parse : string -> Result JPair) (and_ : list FilterArg -> Result Filter)
  (c : Call) (cols : Arg string) :
  column_list_cols c = Some cols ->
  match eval_call and_ c with
  | Ok a =>
      _cols a = to_sequence cols
      /\ raises (j_aggregation parse a)
         = is_nil (to_sequence cols)
           || existsb (fun col => raises (parse col)) (to_sequence cols)
      /\ error_of (j_aggregation parse a)
         = (if is_nil (to_sequence cols)
            then Some no_columns
            else error_of (comprehension parse (to_sequence cols)))
      /\ forall before col after e,
           to_sequence cols = before ++ col :: after ->
           Forall (fun x => raises (parse x) = false) before ->
           parse col = Raise e ->
           j_aggregation parse a = Raise e
  | Raise e => c = call_unique cols true PyNone /\ e = sentinel_required
  end.
Proof.
  intros Hcols.
  destruct (eval_call and_ c) as [a | e] eqn:Hcall.
  - destruct (column_list_call_shape and_ c cols a Hcols Hcall) as [spec ->].
    split; [reflexivity |].
    rewrite j_aggregation_of_spec.
    split; [| split].
    + destruct (to_sequence cols) as [| col rest] eqn:Hseq; [reflexivity |].
      rewrite raises_bind_Ok, raises_comprehension. reflexivity.
    + destruct (to_sequence cols) as [| col rest] eqn:Hseq; [reflexivity |].
      rewrite error_of_bind_Ok. reflexivity.
    + intros before col after e Hseq Hbefore Hcol.
      pose proof (comprehension_Raise_first parse before col after e
                    Hbefore Hcol) as Hrun.
      rewrite Hseq.
      destruct before as [| x before']; cbn [app] in Hrun |- *;
        rewrite Hrun; reflexivity.
  - exact (column_list_call_raise and_ c cols e Hcols Hcall).
Qed.

(** At [sum_("a = b = c")] with the spec's pair parser: the column is stored
    as given and reading [j_aggregation] raises. *)
Lemma column_list_cols_are_parsed_on_read_witness :
  column_list_cols (call_sum_ (One "a = b = c")) = Some (One "a = b = c")
  /\ match eval_call and_filters (call_sum_ (One "a = b = c")) with
     | Ok a =>
         _cols a = ["a = b = c"]
         /\ raises (j_aggregation Pair_parse a) = true
         /\ error_of (j_aggregation Pair_parse a)
            = Some (JException "InvalidArgument: unable to parse pair a = b = c")
         /\ j_aggregation Pair_parse a = Raise (JException "InvalidArgument: unable to parse pair a = b = c")
     | Raise _ => False
     end.
Proof.
  split; [reflexivity |].
  destruct (column_list_cols_are_parsed_on_read Pair_parse and_filters
              (call_sum_ (One "a = b = c")) (One "a = b = c") eq_refl)
    as (Hstored & Hraises & Herror & Hfirst).
  split; [exact Hstored |]. split; [exact Hraises |].
  split; [exact Herror |].
  exact (Hfirst [] "a = b = c" []
           (JException "InvalidArgument: unable to parse pair a = b = c")
           eq_refl (Forall_nil _) eq_refl).
Defined.

(** ** Reading the properties *)

(** C8 (counterexample): [sum_] was given one column, and [j_aggregation]
    raises the parser's exception. *)
Lemma j_aggregation_raises_on_unparsable_column :
  (a <- sum_ (One "a = b = c") ;; j_aggregation Pair_parse a)
  = Raise (JException "InvalidArgument: unable to parse pair a = b = c")
  /\ to_sequence (One "a = b = c") = ["a = b = c"].
Proof. split; reflexivity. Qed.

(** C8 (amended): for an object returned by a column-list factory,
    [j_aggregation] raises the DHError "No columns specified for the
    aggregation operation." when [cols] was [None] (or empty); when columns
    were given it parses them in order and returns the stored spec applied to
    the parsed pairs, or raises the exception of the first column that does
    not parse. *)
Theorem j_aggregation_of_column_list
  (parse : string -> Result JPair) (and_ : list FilterArg -> Result Filter)
  (c : Call) (cols : Arg string) (a : Aggregation) :
  column_list_cols c = Some cols ->
  eval_call and_ c = Ok a ->
  exists spec,
    _j_agg_spec a = Some spec
    /\ j_aggregation parse a
       = match cols with
         | Absent => Raise no_columns
         | _ =>
             match to_sequence cols with
             | [] => Raise no_columns
             | given =>
                 pairs <- comprehension parse given ;;
                 Ok (Aggregation_of spec pairs)
             end
         end.
Proof.
  intros Hcols Hcall.
  destruct (column_list_call_shape and_ c cols a Hcols Hcall) as [spec ->].
  exists spec. split; [reflexivity |].
  rewrite j_aggregation_of_spec.
  destruct cols; reflexivity.
Qed.

(** At [avg(["Mean = X", "Y"])] with the spec's pair parser: the average spec
    applied to the two parsed pairs. *)
Lemma j_aggregation_of_column_list_witness :
  column_list_cols (call_avg (Many ["Mean = X"; "Y"])) = Some (Many ["Mean = X"; "Y"])
  /\ eval_call and_filters (call_avg (Many ["Mean = X"; "Y"]))
     = Ok (Aggregation_init (Some AggSpec_avg) None (Many ["Mean = X"; "Y"]))
  /\ exists spec,
       Some AggSpec_avg = Some spec
       /\ j_aggregation Pair_parse
            (Aggregation_init (Some AggSpec_avg) None (Many ["Mean = X"; "Y"]))
          = Ok (Aggregation_of spec
                  [ {| output := "Mean"; input := "X" |};
                    {| output := "Y"; input := "Y" |} ]).
Proof.
  split; [reflexivity |]. split; [reflexivity |].
  exact (j_aggregation_of_column_list Pair_parse and_filters
           (call_avg (Many ["Mean = X"; "Y"])) (Many ["Mean = X"; "Y"])
           (Aggregation_init (Some AggSpec_avg) None (Many ["Mean = X"; "Y"]))
           eq_refl eq_refl).
Defined.

(** The representation held by the object a call returns. *)
Lemma call_representation
  (and_ : list FilterArg -> Result Filter) (c : Call) (a : Aggregation) :
  eval_call and_ c = Ok a ->
  if complete_operation c
  then _j_agg_spec a = None
       /\ exists agg, _j_aggregation a = Some agg
                      /\ isinstance_Formula agg = is_formula_call c
  else _j_aggregation a = None
       /\ exists spec, _j_agg_spec a = Some spec
                       /\ isinstance_AggSpecFormula spec = is_formula_call c.
Proof.
  intros Hcall.
  destruct c; simpl in Hcall |- *;
    try (injection Hcall as <-; split; [reflexivity | eexists; split; reflexivity]).
  - destruct col; try discriminate Hcall.
    injection Hcall as <-. split; [reflexivity | eexists; split; reflexivity].
  - unfold count_where in Hcall. destruct col; try discriminate Hcall.
    destruct (and_ (to_sequence filters)); try discriminate Hcall.
    injection Hcall as <-. split; [reflexivity | eexists; split; reflexivity].
  - destruct col; try discriminate Hcall.
    injection Hcall as <-. split; [reflexivity | eexists; split; reflexivity].
  - unfold formula in Hcall.
    destruct formula_param as [[| ch rest] |]; simpl;
      try (destruct (truthy cols); try discriminate Hcall);
      injection Hcall as <-; split; try reflexivity;
      eexists; split; reflexivity.
  - unfold unique in Hcall.
    destruct non_unique_sentinel, include_nulls; try discriminate Hcall;
      injection Hcall as <-; split; try reflexivity;
      eexists; split; reflexivity.
Qed.

(** C9: on an object returned by [count_], [count_where], [partition] or
    [formula] in its self-contained mode, [j_agg_spec] raises the DHError
    "unsupported aggregation operation."; on an object returned by any other
    factory (the column-list factories and the parameterized [formula]) it
    returns the stored spec. *)
Theorem j_agg_spec_of_call
  (and_ : list FilterArg -> Result Filter) (c : Call) (a : Aggregation) :
  eval_call and_ c = Ok a ->
  if complete_operation c
  then j_agg_spec a = Raise unsupported
  else exists spec, _j_agg_spec a = Some spec /\ j_agg_spec a = Ok (Some spec).
Proof.
  intros Hcall.
  pose proof (call_representation and_ c a Hcall) as Hrep.
  unfold j_agg_spec.
  destruct (complete_operation c).
  - destruct Hrep as [_ [agg [-> _]]]. reflexivity.
  - destruct Hrep as [-> [spec [Hspec _]]]. exists spec. rewrite Hspec.
    split; reflexivity.
Qed.

(** At [formula("Out = (A + B) * C")]: [j_agg_spec] raises. *)
Lemma j_agg_spec_of_call_witness :
  eval_call and_filters (call_formula "Out = (A + B) * C" None Absent)
  = Ok (Aggregation_init None (Some (AggFormula "Out = (A + B) * C")) Absent)
  /\ j_agg_spec
       (Aggregation_init None (Some (AggFormula "Out = (A + B) * C")) Absent)
     = Raise unsupported.
Proof.
  split; [reflexivity |].
  exact (j_agg_spec_of_call and_filters
           (call_formula "Out = (A + B) * C" None Absent)
           (Aggregation_init None (Some (AggFormula "Out = (A + B) * C")) Absent)
           eq_refl).
Defined.

(** C10: an object returned by a factory has exactly one representation set:
    the complete aggregation and no spec after [count_], [count_where],
    [partition] and the self-contained [formula]; the spec and no complete
    aggregation after every other factory.  [is_formula] therefore returns,
    and it is true exactly on the objects [formula] built. *)
Theorem exactly_one_representation
  (and_ : list FilterArg -> Result Filter) (c : Call) (a : Aggregation) :
  eval_call and_ c = Ok a ->
  (if complete_operation c
   then _j_agg_spec a = None /\ exists agg, _j_aggregation a = Some agg
   else _j_aggregation a = None /\ exists spec, _j_agg_spec a = Some spec)
  /\ is_formula a = Ok (is_formula_call c).
Proof.
  intros Hcall.
  pose proof (call_representation and_ c a Hcall) as Hrep.
  unfold is_formula.
  destruct (complete_operation c).
  - destruct Hrep as [Hspec [agg [Hagg Hf]]]. rewrite Hspec, Hagg, Hf.
    split; [split; [reflexivity | exists agg; reflexivity] | reflexivity].
  - destruct Hrep as [Hagg [spec [Hspec Hf]]]. rewrite Hspec, Hagg, Hf.
    split; [split; [reflexivity | exists spec; reflexivity] | reflexivity].
Qed.

(** At [count_where("N", "X > 1")]: only the complete aggregation is set and
    the object is not a formula. *)
Lemma exactly_one_representation_witness :
  eval_call and_filters (call_count_where (PyStr "N") (One (FilterStr "X > 1")))
  = Ok (Aggregation_init None
          (Some (AggCountWhere "N" (JFilter_and [JFilter_expr "X > 1"])))
          Absent)
  /\ (@None JAggSpec = None
      /\ exists agg : JAggregation,
           Some (AggCountWhere "N" (JFilter_and [JFilter_expr "X > 1"]))
           = Some agg)
  /\ is_formula
       (Aggregation_init None
          (Some (AggCountWhere "N" (JFilter_and [JFilter_expr "X > 1"])))
          Absent)
     = Ok false.
Proof.
  split; [reflexivity |].
  exact (exactly_one_representation and_filters
           (call_count_where (PyStr "N") (One (FilterStr "X > 1")))
           (Aggregation_init None
              (Some (AggCountWhere "N" (JFilter_and [JFilter_expr "X > 1"])))
              Absent)
           eq_refl).
Defined.

(** ** What the engine computes from the objects *)

(** The conjunction built by [and_filters] holds on a row exactly when every
    supplied predicate does. *)
Lemma holds_and_filters {Row : Type} (eval_condition : string -> Row -> bool)
  (filters : list FilterArg) (row : Row) :
  holds eval_condition (JFilter_and (map filter_of filters)) row
  = forallb (fun p => predicate_holds eval_condition p row) filters.
Proof.
  simpl. induction filters as [| p rest IH]; simpl.
  - reflexivity.
  - rewrite IH. reflexivity.
Qed.

(** C6: [count_where] hands every supplied filter to [and_] and the combined
    filter to the engine's count-where aggregation.  When [and_] accepts the
    filters and its result is their logical AND, the aggregation counts, in a
    group, exactly the rows on which every supplied predicate is true. *)
Theorem count_where_counts_rows_passing_every_filter
  {Row : Type} (eval_condition : string -> Row -> bool)
  (parse : string -> Result JPair) (and_ : list FilterArg -> Result Filter)
  (col : string) (filters : Arg FilterArg) (combined : Filter)
  (rows : list Row) :
  and_ (to_sequence filters) = Ok combined ->
  (forall row,
      holds eval_condition (j_filter combined) row
      = forallb (fun p => predicate_holds eval_condition p row)
          (to_sequence filters)) ->
  exists a agg,
    count_where and_ (PyStr col) filters = Ok a
    /\ j_aggregation parse a = Ok agg
    /\ count_where_of eval_condition agg rows
       = Some (List.length
                 (List.filter
                    (fun row =>
                       forallb (fun p => predicate_holds eval_condition p row)
                         (to_sequence filters))
                    rows)).
Proof.
  intros Hand Hsem.
  unfold count_where. rewrite Hand. simpl.
  eexists. eexists.
  split; [reflexivity |]. split; [reflexivity |].
  simpl. f_equal. f_equal.
  apply filter_ext. exact Hsem.
Qed.

(** At [count_where("N", ["X > 1", "X < 5"])] on rows 0, 2, 3, 7, 4: three rows
    pass both filters. *)
Lemma count_where_counts_rows_passing_every_filter_witness :
  and_filters (to_sequence (Many [FilterStr "X > 1"; FilterStr "X < 5"]))
  = Ok {| j_filter := JFilter_and [JFilter_expr "X > 1"; JFilter_expr "X < 5"] |}
  /\ exists a agg,
       count_where and_filters (PyStr "N")
         (Many [FilterStr "X > 1"; FilterStr "X < 5"]) = Ok a
       /\ j_aggregation Pair_parse a = Ok agg
       /\ count_where_of sample_condition agg [0; 2; 3; 7; 4]%Z = Some 3.
Proof.
  split; [reflexivity |].
  exact (count_where_counts_rows_passing_every_filter sample_condition
           Pair_parse and_filters "N"
           (Many [FilterStr "X > 1"; FilterStr "X < 5"])
           {| j_filter := JFilter_and [JFilter_expr "X > 1"; JFilter_expr "X < 5"] |}
           [0; 2; 3; 7; 4]%Z
           eq_refl
           (fun row => eq_refl)).
Defined.

(** The sorted view is the group's values in ascending order. *)
Lemma insert_sorted_Permutation (x : Q) (l : list Q) :
  Permutation (x :: l) (insert_sorted x l).
Proof.
  induction l as [| y rest IH]; simpl.
  - apply Permutation_refl.
  - destruct (Qle_bool x y).
    + apply Permutation_refl.
    + apply perm_trans with (y :: x :: rest).
      * apply perm_swap.
      * apply perm_skip. exact IH.
Qed.

Lemma sorted_view_Permutation (values : list Q) :
  Permutation values (sorted_view values).
Proof.
  induction values as [| x rest IH]; simpl.
  - apply perm_nil.
  - apply perm_trans with (x :: sorted_view rest).
    + apply perm_skip. exact IH.
    + apply insert_sorted_Permutation.
Qed.

Lemma insert_sorted_Sorted (x : Q) (l : list Q) :
  Sorted Qle l -> Sorted Qle (insert_sorted x l).
Proof.
  induction l as [| y rest IH]; intros Hsorted; simpl.
  - repeat constructor.
  - destruct (Qle_bool x y) eqn:Hxy.
    + constructor; [exact Hsorted |].
      constructor. apply Qle_bool_iff. exact Hxy.
    + assert (Hyx : (y <= x)%Q).
      { apply Qlt_le_weak, Qnot_le_lt. intros Hle.
        apply Qle_bool_iff in Hle. rewrite Hle in Hxy. discriminate Hxy. }
      inversion Hsorted as [| ? ? Hrest Hhd]; subst.
      constructor; [exact (IH Hrest) |].
      destruct rest as [| z rest']; simpl.
      * constructor. exact Hyx.
      * destruct (Qle_bool x z); constructor.
        -- exact Hyx.
        -- inversion Hhd; subst. assumption.
Qed.

Lemma sorted_view_Sorted (values : list Q) :
  Sorted Qle (sorted_view values).
Proof.
  induction values as [| x rest IH]; simpl.
  - constructor.
  - apply insert_sorted_Sorted. exact IH.
Qed.

(** The middle of an even and of an odd number of sorted values, as target
    ranks of the 50th percentile. *)
Lemma half_rank_between (k : nat) :
  ((1 * Z.of_nat (2 * k + 1)) mod 2 =? 0)%Z = false
  /\ Z.to_nat (1 * Z.of_nat (2 * k + 1) / 2) = k.
Proof.
  split.
  - apply Z.eqb_neq. intros H.
    pose proof (Z.div_mod (1 * Z.of_nat (2 * k + 1)) 2 ltac:(lia)). lia.
  - pose proof (Z.div_mod (1 * Z.of_nat (2 * k + 1)) 2 ltac:(lia)) as Hdm.
    pose proof (Z.mod_pos_bound (1 * Z.of_nat (2 * k + 1)) 2 ltac:(lia)).
    lia.
Qed.

Lemma half_rank_exact (k : nat) :
  ((1 * Z.of_nat (2 * k)) mod 2 =? 0)%Z = true
  /\ Z.to_nat (1 * Z.of_nat (2 * k) / 2) = k.
Proof.
  pose proof (Z.div_mod (1 * Z.of_nat (2 * k)) 2 ltac:(lia)) as Hdm.
  pose proof (Z.mod_pos_bound (1 * Z.of_nat (2 * k)) 2 ltac:(lia)).
  split.
  - apply Z.eqb_eq. lia.
  - lia.
Qed.

(** The median of the docstring is the percentile of the spec at one half. *)
Lemma median_is_percentile_half (average_evenly_divided : bool)
  (values : list Q) :
  median_of average_evenly_divided values
  = percentile_of (1 # 2)%Q average_evenly_divided values.
Proof.
  unfold median_of, percentile_of.
  destruct (List.length (sorted_view values)) as [| m] eqn:Hn; [reflexivity |].
  change (Qnum (1 # 2)%Q) with 1%Z. change (Z.pos (Qden (1 # 2)%Q)) with 2%Z.
  destruct (Nat.Even_or_Odd m) as [[k ->] | [k ->]].
  - destruct (half_rank_exact k) as [-> ->].
    replace (Nat.even (S (2 * k))) with false
      by (symmetry; rewrite <- Nat.negb_odd, Nat.odd_succ, Nat.even_mul;
          reflexivity).
    f_equal.
    replace (S (2 * k)) with (1 + k * 2) by lia.
    rewrite Nat.div_add by lia. reflexivity.
  - destruct (half_rank_between k) as [-> ->].
    replace (Nat.even (S (2 * k + 1))) with true
      by (symmetry; replace (S (2 * k + 1)) with (2 * (k + 1)) by lia;
          rewrite Nat.even_mul; reflexivity).
    replace (S (2 * k + 1) / 2) with (k + 1)
      by (replace (S (2 * k + 1)) with (0 + (k + 1) * 2) by lia;
          rewrite Nat.div_add by lia; reflexivity).
    replace (k + 1 - 1) with k by lia.
    reflexivity.
Qed.

(** C7: the object [median] builds with [average_evenly_divided] true gives
    2.5 on the group 1, 2, 3, 4; with false it gives 2, the smaller of the two
    middle values; and on every group the object [median] builds gives what
    the 50th percentile built by [pct] gives. *)
Theorem median_of_group (cols : Arg string) :
  exists averaged lower,
    median cols true = Ok averaged
    /\ median cols false = Ok lower
    /\ apply_to_group averaged [1; 2; 3; 4]%Q = Some (5 # 2)%Q
    /\ apply_to_group lower [1; 2; 3; 4]%Q = Some 2%Q
    /\ forall (average_evenly_divided : bool) (values : list Q),
         exists m p,
           median cols average_evenly_divided = Ok m
           /\ pct (1 # 2)%Q cols average_evenly_divided = Ok p
           /\ apply_to_group m values = apply_to_group p values.
Proof.
  eexists. eexists.
  split; [reflexivity |]. split; [reflexivity |].
  split; [reflexivity |]. split; [reflexivity |].
  intros average_evenly_divided values.
  eexists. eexists.
  split; [reflexivity |]. split; [reflexivity |].
  apply median_is_percentile_half.
Qed.

(** * Further properties of the properties and factories *)

(** ** Comprehensions, inverted *)

(** A comprehension that returns has one result per element, in order. *)
Lemma comprehension_Ok_inv {A B : Type} (f : A -> Result B) (l : list A)
  (bs : list B) :
  comprehension f l = Ok bs ->
  Forall2 (fun a b => f a = Ok b) l bs.
Proof.
  revert bs. induction l as [| a rest IH]; intros bs Hrun; simpl in Hrun.
  - injection Hrun as <-. constructor.
  - destruct (f a) as [b | e] eqn:Hfa; simpl in Hrun; [| discriminate Hrun].
    destruct (comprehension f rest) as [bs' | e]; simpl in Hrun;
      [| discriminate Hrun].
    injection Hrun as <-.
    constructor; [exact Hfa | apply IH; reflexivity].
Qed.

(** A comprehension that raises stopped at its first failing element. *)
Lemma comprehension_Raise_inv {A B : Type} (f : A -> Result B) (l : list A)
  (e : exn) :
  comprehension f l = Raise e ->
  exists before a after,
    l = before ++ a :: after
    /\ Forall (fun x => raises (f x) = false) before
    /\ f a = Raise e.
Proof.
  induction l as [| a rest IH]; intros Hrun; simpl in Hrun.
  - discriminate Hrun.
  - destruct (f a) as [b | e'] eqn:Hfa; simpl in Hrun.
    + destruct (comprehension f rest) as [bs | e'] eqn:Hrest; simpl in Hrun;
        [discriminate Hrun |].
      injection Hrun as ->.
      destruct (IH eq_refl) as (before & x & after & -> & Hbefore & Hx).
      exists (a :: before), x, after.
      split; [reflexivity |]. split; [| exact Hx].
      constructor; [rewrite Hfa; reflexivity | exact Hbefore].
    + injection Hrun as ->.
      exists [], a, rest.
      split; [reflexivity |]. split; [constructor | exact Hfa].
Qed.

(** ** Reading [j_aggregation] from any object *)

(** X1: whatever the object and the pair parser, [j_agg_spec] and
    [j_aggregation] never both raise.  When [j_agg_spec] raises, it raises
    the DHError "unsupported aggregation operation." and [j_aggregation]
    returns the stored complete aggregation; when it returns, it returns the
    stored spec and the object holds no complete aggregation. *)
Theorem properties_never_both_raise
  (parse : string -> Result JPair) (self : Aggregation) :
  raises (j_agg_spec self) && raises (j_aggregation parse self) = false
  /\ match j_agg_spec self with
     | Raise e =>
         e = unsupported
         /\ exists agg,
              _j_aggregation self = Some agg
              /\ j_aggregation parse self = Ok agg
     | Ok spec => spec = _j_agg_spec self /\ _j_aggregation self = None
     end.
Proof.
  unfold j_agg_spec, j_aggregation.
  destruct (_j_aggregation self) as [agg |].
  - split; [reflexivity |]. split; [reflexivity |].
    exists agg. split; reflexivity.
  - split; [reflexivity |]. split; reflexivity.
Qed.

(** X2: when [j_aggregation] returns, it returns either the stored complete
    aggregation, or the stored spec applied to exactly one parsed pair per
    stored column, in the order of the columns, and there is at least one. *)
Theorem j_aggregation_returns_one_pair_per_column
  (parse : string -> Result JPair) (self : Aggregation) (agg : JAggregation) :
  j_aggregation parse self = Ok agg ->
  _j_aggregation self = Some agg
  \/ (_j_aggregation self = None
      /\ exists spec pairs,
           _j_agg_spec self = Some spec
           /\ agg = Aggregation_of spec pairs
           /\ Forall2 (fun col pair => parse col = Ok pair) (_cols self) pairs
           /\ List.length pairs = List.length (_cols self)
           /\ is_nil pairs = false).
Proof.
  unfold j_aggregation. intros Hread.
  destruct (_j_aggregation self) as [stored |].
  - left. injection Hread as <-. reflexivity.
  - right. split; [reflexivity |].
    destruct (_cols self) as [| col rest] eqn:Hcols;
      cbv beta iota delta [is_nil] in Hread; [discriminate Hread |].
    destruct (_j_agg_spec self) as [spec |]; [| discriminate Hread].
    destruct (comprehension parse (col :: rest)) as [pairs | e] eqn:Hrun;
      simpl in Hread; [| discriminate Hread].
    injection Hread as <-.
    pose proof (comprehension_Ok_inv parse _ _ Hrun) as Hall.
    exists spec, pairs.
    split; [reflexivity |]. split; [reflexivity |]. split; [exact Hall |].
    split.
    + symmetry. exact (Forall2_length Hall).
    + inversion Hall; reflexivity.
Qed.

(** X3: when [j_aggregation] raises, the exception is the DHError for missing
    columns, the AttributeError of an object with columns but no spec, or the
    exception the parser raised on the first stored column it rejects: the
    columns before it parsed. *)
Theorem j_aggregation_raises_from_first_bad_column
  (parse : string -> Result JPair) (self : Aggregation) (e : exn) :
  j_aggregation parse self = Raise e ->
  (e = no_columns /\ _cols self = [])
  \/ (e = AttributeError "aggregation"
      /\ _j_agg_spec self = None
      /\ is_nil (_cols self) = false)
  \/ exists before col after,
       _cols self = before ++ col :: after
       /\ Forall (fun c => raises (parse c) = false) before
       /\ parse col = Raise e.
Proof.
  unfold j_aggregation. intros Hread.
  destruct (_j_aggregation self) as [stored |]; [discriminate Hread |].
  destruct (_cols self) as [| col rest] eqn:Hcols;
    cbv beta iota delta [is_nil] in Hread.
  - left. injection Hread as <-. split; reflexivity.
  - right.
    destruct (_j_agg_spec self) as [spec |].
    + right.
      destruct (comprehension parse (col :: rest)) as [pairs | e'] eqn:Hrun;
        simpl in Hread; [discriminate Hread |].
      injection Hread as ->.
      exact (comprehension_Raise_inv parse _ _ Hrun).
    + left. injection Hread as <-. repeat split.
Qed.

(** At [avg(["Mean = X", "Y"])] with the spec's pair parser. *)
Lemma j_aggregation_returns_one_pair_per_column_witness :
  j_aggregation Pair_parse
    (Aggregation_init (Some AggSpec_avg) None (Many ["Mean = X"; "Y"]))
  = Ok (Aggregation_of AggSpec_avg
          [ {| output := "Mean"; input := "X" |};
            {| output := "Y"; input := "Y" |} ])
  /\ exists spec pairs,
       Aggregation_of AggSpec_avg
         [ {| output := "Mean"; input := "X" |};
           {| output := "Y"; input := "Y" |} ]
       = Aggregation_of spec pairs
       /\ List.length pairs = 2.
Proof.
  split; [reflexivity |].
  destruct (j_aggregation_returns_one_pair_per_column Pair_parse
              (Aggregation_init (Some AggSpec_avg) None
                 (Many ["Mean = X"; "Y"]))
              (Aggregation_of AggSpec_avg
                 [ {| output := "Mean"; input := "X" |};
                   {| output := "Y"; input := "Y" |} ])
              eq_refl)
    as [Hstored | [_ (spec & pairs & _ & Hagg & _ & Hlen & _)]].
  - discriminate Hstored.
  - exists spec, pairs. split; [exact Hagg | exact Hlen].
Defined.

(** At [sum_(["X", "a = b = c", "Y"])] with the spec's pair parser: the
    exception is the one raised on the second column. *)
Lemma j_aggregation_raises_from_first_bad_column_witness :
  j_aggregation Pair_parse
    (Aggregation_init (Some AggSpec_sum) None (Many ["X"; "a = b = c"; "Y"]))
  = Raise (JException "InvalidArgument: unable to parse pair a = b = c")
  /\ exists before col after,
       ["X"; "a = b = c"; "Y"] = before ++ col :: after
       /\ Forall (fun c => raises (Pair_parse c) = false) before
       /\ Pair_parse col
          = Raise (JException "InvalidArgument: unable to parse pair a = b = c").
Proof.
  split; [reflexivity |].
  destruct (j_aggregation_raises_from_first_bad_column Pair_parse
              (Aggregation_init (Some AggSpec_sum) None
                 (Many ["X"; "a = b = c"; "Y"]))
              (JException "InvalidArgument: unable to parse pair a = b = c")
              eq_refl)
    as [[Hno _] | [[Hattr _] | Hcol]].
  - discriminate Hno.
  - discriminate Hattr.
  - exact Hcol.
Defined.

(** ** What the factories return and raise *)

(** The object a call returns: a spec with the caller's columns, or a complete
    aggregation, not built from a spec, with no columns. *)
Lemma eval_call_Ok_inv
  (and_ : list FilterArg -> Result Filter) (c : Call) (a : Aggregation) :
  eval_call and_ c = Ok a ->
  (complete_operation c = false
   /\ exists spec cols,
        a = Aggregation_init (Some spec) None cols
        /\ isinstance_AggSpecFormula spec = is_formula_call c)
  \/ (complete_operation c = true
      /\ exists agg,
           a = Aggregation_init None (Some agg) Absent
           /\ isinstance_Formula agg = is_formula_call c
           /\ match agg with
              | Aggregation_of _ _ => False
              | _ => True
              end).
Proof.
  intros Hcall.
  destruct c; simpl in Hcall |- *;
    try (injection Hcall as <-; left; split; [reflexivity |];
         eexists; eexists; split; reflexivity).
  - destruct col; try discriminate Hcall.
    injection Hcall as <-. right. split; [reflexivity |].
    eexists. repeat split.
  - unfold count_where in Hcall. destruct col; try discriminate Hcall.
    destruct (and_ (to_sequence filters)); try discriminate Hcall.
    injection Hcall as <-. right. split; [reflexivity |].
    eexists. repeat split.
  - destruct col; try discriminate Hcall.
    injection Hcall as <-. right. split; [reflexivity |].
    eexists. repeat split.
  - unfold formula in Hcall.
    destruct formula_param as [[| ch rest] |]; simpl;
      try (destruct (truthy cols); try discriminate Hcall);
      injection Hcall as <-;
      first [ right; split; [reflexivity |]; eexists; repeat split
            | left; split; [reflexivity |];
              eexists; eexists; split; reflexivity ].
  - unfold unique in Hcall.
    destruct non_unique_sentinel, include_nulls; try discriminate Hcall;
      injection Hcall as <-; left; split; try reflexivity;
      eexists; eexists; split; reflexivity.
Qed.

(** X4: the object returned by [count_], [count_where], [partition] or the
    self-contained [formula] stores no columns, and [j_aggregation] returns
    its complete aggregation whatever the pair parser, without parsing. *)
Theorem complete_operation_needs_no_columns
  (and_ : list FilterArg -> Result Filter) (c : Call) (a : Aggregation) :
  eval_call and_ c = Ok a ->
  complete_operation c = true ->
  _cols a = []
  /\ exists agg,
       _j_aggregation a = Some agg
       /\ forall parse : string -> Result JPair,
            j_aggregation parse a = Ok agg.
Proof.
  intros Hcall Hcomplete.
  destruct (eval_call_Ok_inv and_ c a Hcall)
    as [[Hspec _] | [_ (agg & -> & _)]].
  - rewrite Hspec in Hcomplete. discriminate Hcomplete.
  - split; [reflexivity |]. exists agg. split; [reflexivity |].
    intros parse. reflexivity.
Qed.

(** At [partition("Sub", False)]. *)
Lemma complete_operation_needs_no_columns_witness :
  eval_call and_filters (call_partition (PyStr "Sub") false)
  = Ok (Aggregation_init None (Some (AggPartition "Sub" false)) Absent)
  /\ complete_operation (call_partition (PyStr "Sub") false) = true
  /\ exists agg,
       Some (AggPartition "Sub" false) = Some agg
       /\ forall parse : string -> Result JPair,
            j_aggregation parse
              (Aggregation_init None (Some (AggPartition "Sub" false)) Absent)
            = Ok agg.
Proof.
  split; [reflexivity |]. split; [reflexivity |].
  exact (proj2 (complete_operation_needs_no_columns and_filters
                  (call_partition (PyStr "Sub") false)
                  (Aggregation_init None (Some (AggPartition "Sub" false))
                     Absent)
                  eq_refl eq_refl)).
Defined.

(** X5: a factory call raises nothing but a DHError of its own, except that
    [count_where] on a string [col] lets through what [and_] raises on the
    filters. *)
Theorem factories_raise_DHError
  (and_ : list FilterArg -> Result Filter) (c : Call) (e : exn) :
  eval_call and_ c = Raise e ->
  (exists message, e = DHError message)
  \/ exists name filters,
       c = call_count_where (PyStr name) filters
       /\ and_ (to_sequence filters) = Raise e.
Proof.
  intros Hcall.
  destruct c; simpl in Hcall; try discriminate Hcall.
  - destruct col; try discriminate Hcall;
      injection Hcall as <-; left; eexists; reflexivity.
  - unfold count_where in Hcall.
    destruct col;
      try (injection Hcall as <-; left; eexists; reflexivity).
    destruct (and_ (to_sequence filters)) as [combined | e'] eqn:Hand;
      simpl in Hcall; [discriminate Hcall |].
    injection Hcall as ->. right. exists s, filters.
    split; [reflexivity | exact Hand].
  - destruct col; try discriminate Hcall;
      injection Hcall as <-; left; eexists; reflexivity.
  - unfold formula in Hcall.
    destruct formula_param as [[| ch rest] |];
      try discriminate Hcall;
      destruct (truthy cols); try discriminate Hcall;
      injection Hcall as <-; left; eexists; reflexivity.
  - unfold unique in Hcall.
    destruct non_unique_sentinel, include_nulls; try discriminate Hcall;
      injection Hcall as <-; left; eexists; reflexivity.
Qed.

(** At [count_(3)]. *)
Lemma factories_raise_DHError_witness :
  eval_call and_filters (call_count_ (PyInt 3))
  = Raise (DHError "count_ aggregation requires a string value for the 'col' argument.")
  /\ ((exists message,
         DHError "count_ aggregation requires a string value for the 'col' argument."
         = DHError message)
      \/ exists name filters,
           call_count_ (PyInt 3) = call_count_where (PyStr name) filters
           /\ and_filters (to_sequence filters)
              = Raise (DHError "count_ aggregation requires a string value for the 'col' argument.")).
Proof.
  split; [reflexivity |].
  exact (factories_raise_DHError and_filters (call_count_ (PyInt 3))
           (DHError "count_ aggregation requires a string value for the 'col' argument.")
           eq_refl).
Defined.

(** X6: [is_formula] tells what [j_aggregation] yields: on an object a factory
    returned, whenever [j_aggregation] returns an engine aggregation,
    [is_formula] is true exactly when that aggregation is a formula
    aggregation or a formula spec applied to columns. *)
Theorem is_formula_agrees_with_j_aggregation
  (parse : string -> Result JPair) (and_ : list FilterArg -> Result Filter)
  (c : Call) (a : Aggregation) (agg : JAggregation) :
  eval_call and_ c = Ok a ->
  j_aggregation parse a = Ok agg ->
  is_formula a
  = Ok match agg with
       | AggFormula _ => true
       | Aggregation_of spec _ => isinstance_AggSpecFormula spec
       | _ => false
       end.
Proof.
  intros Hcall Hread.
  destruct (eval_call_Ok_inv and_ c a Hcall)
    as [[_ (spec & cols & -> & _)] | [_ (stored & -> & _ & Hshape)]].
  - rewrite j_aggregation_of_spec in Hread.
    destruct (to_sequence cols) as [| col rest]; [discriminate Hread |].
    destruct (comprehension parse (col :: rest)) as [pairs | e];
      simpl in Hread; [| discriminate Hread].
    injection Hread as <-. reflexivity.
  - injection Hread as <-.
    destruct stored; try reflexivity. contradiction Hshape.
Qed.

(** At the parameterized [formula("max(each)", "each", "MaxX = X")]. *)
Lemma is_formula_agrees_with_j_aggregation_witness :
  eval_call and_filters
    (call_formula "max(each)" (Some "each") (One "MaxX = X"))
  = Ok (Aggregation_init (Some (AggSpec_formula "max(each)" "each")) None
          (One "MaxX = X"))
  /\ j_aggregation Pair_parse
       (Aggregation_init (Some (AggSpec_formula "max(each)" "each")) None
          (One "MaxX = X"))
     = Ok (Aggregation_of (AggSpec_formula "max(each)" "each")
             [ {| output := "MaxX"; input := "X" |} ])
  /\ is_formula
       (Aggregation_init (Some (AggSpec_formula "max(each)" "each")) None
          (One "MaxX = X"))
     = Ok true.
Proof.
  split; [reflexivity |]. split; [reflexivity |].
  exact (is_formula_agrees_with_j_aggregation Pair_parse and_filters
           (call_formula "max(each)" (Some "each") (One "MaxX = X"))
           (Aggregation_init (Some (AggSpec_formula "max(each)" "each")) None
              (One "MaxX = X"))
           (Aggregation_of (AggSpec_formula "max(each)" "each")
              [ {| output := "MaxX"; input := "X" |} ])
           eq_refl eq_refl).
Defined.

(** X7: on the object of a column-list factory or of the parameterized
    [formula], built with at least one column, when every stored column
    parses, [j_aggregation] returns the spec that [j_agg_spec] returns,
    applied to the parsed columns in their order. *)
Theorem spec_is_applied_to_the_parsed_columns
  (parse : string -> Result JPair) (parsed : string -> JPair)
  (and_ : list FilterArg -> Result Filter) (c : Call) (a : Aggregation) :
  eval_call and_ c = Ok a ->
  complete_operation c = false ->
  is_nil (_cols a) = false ->
  (forall col, In col (_cols a) -> parse col = Ok (parsed col)) ->
  exists spec,
    j_agg_spec a = Ok (Some spec)
    /\ j_aggregation parse a = Ok (Aggregation_of spec (map parsed (_cols a))).
Proof.
  intros Hcall Hkind Hcols Hparse.
  destruct (eval_call_Ok_inv and_ c a Hcall)
    as [[_ (spec & cols & -> & _)] | [Hcomplete _]].
  - exists spec. split; [reflexivity |].
    rewrite j_aggregation_of_spec.
    change (_cols (Aggregation_init (Some spec) None cols))
      with (to_sequence cols) in *.
    destruct (to_sequence cols) as [| col rest] eqn:Hseq;
      [discriminate Hcols |].
    rewrite (comprehension_Ok parse parsed (col :: rest) Hparse).
    reflexivity.
  - rewrite Hcomplete in Hkind. discriminate Hkind.
Qed.

(** At [formula("max(each)", "each", ["MaxX = X", "Y"])], parsing with the
    spec's pair parser. *)
Lemma spec_is_applied_to_the_parsed_columns_witness :
  exists spec,
    j_agg_spec
      (Aggregation_init (Some (AggSpec_formula "max(each)" "each")) None
         (Many ["MaxX = X"; "Y"]))
    = Ok (Some spec)
    /\ j_aggregation Pair_parse
         (Aggregation_init (Some (AggSpec_formula "max(each)" "each")) None
            (Many ["MaxX = X"; "Y"]))
       = Ok (Aggregation_of spec
               [ {| output := "MaxX"; input := "X" |};
                 {| output := "Y"; input := "Y" |} ]).
Proof.
  apply (spec_is_applied_to_the_parsed_columns Pair_parse
           (fun col =>
              match Pair_parse col with
              | Ok p => p
              | Raise _ => {| output := col; input := col |}
              end)
           and_filters
           (call_formula "max(each)" (Some "each") (Many ["MaxX = X"; "Y"]))
           (Aggregation_init (Some (AggSpec_formula "max(each)" "each")) None
              (Many ["MaxX = X"; "Y"]))
           eq_refl eq_refl eq_refl).
  intros col [<- | [<- | []]]; reflexivity.
Defined.

(** X8: [formula] decides its mode by truth value: an empty [formula_param]
    is treated as no [formula_param], so that supplying columns with it
    raises; and without a [formula_param] an empty [cols] (an empty string or
    an empty list) is treated as no [cols], the formula being taken as
    self-contained. *)
Theorem formula_mode_is_decided_by_truth_value
  (f : string) (cols : Arg string) :
  formula f (Some EmptyString) cols = formula f None cols
  /\ (if truthy cols
      then formula f (Some EmptyString) cols = Raise cols_without_param
      else formula f None cols
           = Ok (Aggregation_init None (Some (AggFormula f)) Absent))
  /\ formula f None (One EmptyString) = formula f None Absent
  /\ formula f None (Many []) = formula f None Absent.
Proof.
  repeat split.
  unfold formula. destruct (truthy cols); reflexivity.
Qed.
